(** * django_firebase_auth.views: a shallow embedding and its properties

    The module [django_firebase_auth/views.py] bridges Firebase identity
    tokens and Django sessions.  Its two entry points are the function
    view [authenticate] (with the helper [_verify_firebase_account]) and
    the class based view [AdminLoginView].

    Python code is embedded as functions in a state-and-exception monad
    over a [World]: the mutable part of the request ([request.user]), the
    user table and the log of calls made to the collaborators.  What the
    module imports from elsewhere (settings, the Firebase client, Django
    shortcuts, the pluggable user getter) is taken as a parameter. *)

From Stdlib Require Import Ascii String.
From stdpp Require Import base option strings list gmap.

Local Open Scope string_scope.
Local Open Scope list_scope.

(** ** Python values, exceptions and outcomes *)

(** The values a decoded token can hold for a claim. *)
Inductive pyvalue :=
  | PyNone
  | PyBool (b : bool)
  | PyStr (s : string)
  | PyInt (z : Z).

(** Python truthiness, as used by [not x] and [x or y]. *)
Definition truthy (v : pyvalue) : bool :=
  match v with
  | PyNone => false
  | PyBool b => b
  | PyStr s => match s with EmptyString => false | String _ _ => true end
  | PyInt z => negb (Z.eqb z 0)
  end.

(** Truthiness of the result of [dict.get]: [None] and [''] are falsy. *)
Definition truthy_str (o : option string) : bool :=
  match o with
  | Some (String _ _) => true
  | _ => false
  end.

(** The [AuthError] hierarchy of the module; [AuthErrorBase] is an
    instance of the base class itself. *)
Inductive AuthError :=
  | AuthErrorBase
  | NoAuthHeader
  | JWTExpired
  | JWTInvalid
  | UserNotRegistered
  | EmailNotVerified.

Definition error_type (cls : AuthError) : string :=
  match cls with
  | AuthErrorBase => "OTHER"
  | NoAuthHeader => "NO_AUTH_HEADER"
  | JWTExpired => "JWT_EXPIRED"
  | JWTInvalid => "JWT_INVALID"
  | UserNotRegistered => "USER_NOT_REGISTERED"
  | EmailNotVerified => "EMAIL_NOT_VERIFIED"
  end.

Definition error_description (cls : AuthError) : string :=
  match cls with
  | AuthErrorBase => "Something went wrong"
  | NoAuthHeader => "Missing Firebase authentication header"
  | JWTExpired => "Firebase authentication token is expired"
  | JWTInvalid => "Firebase authentication token is invalid"
  | UserNotRegistered => "This user has not been registered"
  | EmailNotVerified => "User email has not been verified"
  end.

(** A JSON object with string values, in insertion order. *)
Definition json := list (string * string).

Definition make_response_body (cls : AuthError) : json :=
  [("error", error_type cls); ("description", error_description cls)].

(** Exceptions that can travel through the views.  [ExpiredIdTokenError]
    is a subclass of [FirebaseError]; the constructor [FirebaseError]
    stands for every instance of that class which is not an
    [ExpiredIdTokenError].  [ValueError], [DisallowedRedirect] and
    [OtherException] are outside both the Firebase and the [AuthError]
    hierarchies. *)
Inductive exn :=
  | Auth (e : AuthError)
  | ExpiredIdTokenError
  | FirebaseError
  | UserNotFound
  | KeyError (key : string)
  | NoReverseMatch
  | DoesNotExist
  | MultipleObjectsReturned
  | ValueError
  | DisallowedRedirect
  | OtherException (name : string).

Inductive outcome (A : Type) :=
  | Return (a : A)
  | Raise (e : exn).
Arguments Return {A} a.
Arguments Raise {A} e.

#[global] Instance outcome_ret : MRet outcome := @Return.
#[global] Instance outcome_bind : MBind outcome := λ A B f m,
  match m with
  | Return a => f a
  | Raise e => Raise e
  end.

(** ** Data of the host framework *)

Record User := {
  user_email : string;
  user_password : string;
  is_staff : bool;
}.

(** The decoded token: a dict of claims. *)
Abbreviation Token := (gmap string pyvalue).

(** [request.headers], seen through [.get]. *)
Abbreviation HttpHeaders := (gmap string string).

(** A [QueryDict] keeps a list of values per key. *)
Abbreviation QueryDict := (gmap string (list string)).

(** [QueryDict.get(key)]: the last value of the key; [None] when the key
    is missing or its list is empty. *)
Definition QueryDict_get (query : QueryDict) (key : string) : option string :=
  query !! key ≫= last.

Record HttpRequest := {
  headers : HttpHeaders;
  GET : QueryDict;
  POST : QueryDict;
}.

(** The context handed to the login template by [_render]. *)
Record LoginContext := {
  firebase_web_api_key : string;
  firebase_auth_domain : string;
  enable_google_login : bool;
  jwt_header_name : string;
  firebase_auth_endpoint : string;
  login_redirect_url : string;
  error : option string;
}.

(** Responses.  The body of a rendered page is represented by the name
    of the template and the context the view passes to it. *)
Inductive HttpResponse :=
  | JsonResponse (body : json) (status : Z)
  | TemplateResponse (template : string) (context : LoginContext)
  | HttpResponseRedirect (url : string).

(** Calls made to the collaborators, in the order they happen. *)
Inductive event :=
  | EvVerify (jwt : string)
  | EvResolve (payload : Token)
  | EvLogin (user : User) (backend : string)
  | EvLogout.

(** [request_user] is [request.user] ([None] stands for the anonymous
    user), [db] the table behind [UserModel.objects]. *)
Record World := {
  request_user : option User;
  db : list User;
  calls : list event;
}.

(** ** The monad of views: state that survives a raised exception *)

Definition M (A : Type) : Type := World → outcome A * World.

#[global] Instance M_ret : MRet M := λ A a w, (Return a, w).
#[global] Instance M_bind : MBind M := λ A B f m w,
  match m w with
  | (Return a, w') => f a w'
  | (Raise e, w') => (Raise e, w')
  end.

Definition raise {A} (e : exn) : M A := λ w, (Raise e, w).

Definition lift {A} (o : outcome A) : M A := λ w, (o, w).

(** Runs [m] and hands its outcome to the continuation, the way a
    [try] statement hands an exception to its [except] clauses. *)
Definition catch {A} (m : M A) : M (outcome A) := λ w,
  let '(r, w') := m w in (Return r, w').

Definition log (ev : event) : M unit := λ w,
  (Return tt,
   {| request_user := request_user w; db := db w; calls := calls w ++ [ev] |}).

(** Reads [request.user]; the anonymous user has [is_staff = False]. *)
Definition get_request_user : M (option User) := λ w,
  (Return (request_user w), w).

(** [d[key]] on a dict. *)
Definition subscript (d : Token) (key : string) : M pyvalue :=
  match d !! key with
  | Some v => mret v
  | None => raise (KeyError key)
  end.

(** ** What the module imports *)

(** [django_firebase_auth.conf]. *)
Record Conf := {
  AUTH_BACKEND : string;
  WEB_API_KEY : string;
  AUTH_DOMAIN : string;
  JWT_HEADER_NAME : string;
  ALLOW_NOT_CONFIRMED_EMAILS : bool;
  ENABLE_GOOGLE_LOGIN : bool;
  ADMIN_LOGIN_REDIRECT_URL : string;
}.

(** [firebase_admin.auth]. *)
Record Firebase := {
  verify_id_token : string → outcome Token;
}.

(** [django.shortcuts.resolve_url], the URL [reverse(authenticate)] has
    under the project's URLconf, [user.check_password], and the test
    [HttpResponseRedirect] makes of a URL: whether its scheme is absent
    or one of the response's [allowed_schemes] (http, https, ftp). *)
Record Django := {
  resolve_url : string → outcome string;
  reverse_authenticate : string;
  check_password : User → string → bool;
  allowed_scheme : string → bool;
}.

(** [django_firebase_auth.user_getter.AbstractUserGetter]: the strategy
    sees the claims and the user table, never the request. *)
Class AbstractUserGetter := {
  get_or_create_user : Token → list User → outcome User * list User;
}.

(** Modelled from the spec: the concrete getters of
    [django_firebase_auth/user_getter.py] are not part of the sources at
    hand.  This one resolves the claims by their email; when no user
    matches it creates one if [create_user_if_not_exists] is set and
    raises [UserNotFound] otherwise. *)
Definition EmailUserGetter (create_user_if_not_exists : bool) : AbstractUserGetter :=
  {| get_or_create_user := λ payload users,
       match payload !! "email" with
       | Some (PyStr e) =>
           match filter (λ u, user_email u = e) users with
           | u :: _ => (Return u, users)
           | [] =>
               if create_user_if_not_exists
               then let u := {| user_email := e; user_password := ""; is_staff := false |} in
                    (Return u, users ++ [u])
               else (Raise UserNotFound, users)
           end
       | _ => (Raise (KeyError "email"), users)
       end |}.

(** ** The views *)

Section Views.
Context (cfg : Conf) (fb : Firebase) (dj : Django) (user_getter : AbstractUserGetter).

(** [django.contrib.auth.login]: binds the user to the request. *)
Definition login (user : User) (backend : string) : M unit := λ w,
  (Return tt,
   {| request_user := Some user; db := db w;
      calls := calls w ++ [EvLogin user backend] |}).

(** [django.contrib.auth.logout]. *)
Definition django_logout : M unit := λ w,
  (Return tt,
   {| request_user := None; db := db w; calls := calls w ++ [EvLogout] |}).

(** [auth.verify_id_token(jwt)]. *)
Definition auth_verify_id_token (jwt : string) : M Token :=
  log (EvVerify jwt);; lift (verify_id_token fb jwt).

(** [user_getter.get_or_create_user(jwt_payload)]. *)
Definition user_getter_get_or_create_user (jwt_payload : Token) : M User := λ w,
  let '(r, users) := get_or_create_user jwt_payload (db w) in
  (r, {| request_user := request_user w; db := users;
         calls := calls w ++ [EvResolve jwt_payload] |}).

Definition _verify_firebase_account (headers : HttpHeaders) : M Token :=
  match headers !! JWT_HEADER_NAME cfg with
  | None => raise (Auth NoAuthHeader)
  | Some jwt =>
      r ← catch (auth_verify_id_token jwt);
      match r with
      | Raise ExpiredIdTokenError => raise (Auth JWTExpired)
      | Raise FirebaseError => raise (Auth JWTInvalid)
      | Raise e => raise e
      | Return decoded_token =>
          is_email_verified ← subscript decoded_token "email_verified";
          if negb (truthy is_email_verified) && negb (ALLOW_NOT_CONFIRMED_EMAILS cfg)
          then raise (Auth EmailNotVerified)
          else mret decoded_token
      end
  end.

Definition authenticate (request : HttpRequest) : M HttpResponse :=
  r ← catch (_verify_firebase_account (headers request));
  match r with
  | Raise (Auth ex) => mret (JsonResponse (make_response_body ex) 401)
  | Raise e => raise e
  | Return jwt_payload =>
      r ← catch (user_getter_get_or_create_user jwt_payload);
      match r with
      | Raise UserNotFound =>
          mret (JsonResponse (make_response_body UserNotRegistered) 401)
      | Raise e => raise e
      | Return user =>
          login user (AUTH_BACKEND cfg);;
          mret (JsonResponse [("status", "ok")] 200)
      end
  end.

Definition logout (request : HttpRequest) : M HttpResponse :=
  django_logout;;
  mret (JsonResponse [("status", "ok")] 200).

(** The constructor call [HttpResponseRedirect(url)]: it raises
    [DisallowedRedirect] for a URL whose scheme is not allowed. *)
Definition new_HttpResponseRedirect (url : string) : outcome HttpResponse :=
  if allowed_scheme dj url
  then Return (HttpResponseRedirect url)
  else Raise DisallowedRedirect.

(** [django.shortcuts.redirect(to)] builds
    [HttpResponseRedirect(resolve_url(to))]. *)
Definition redirect (to : string) : outcome HttpResponse :=
  url ← resolve_url dj to; new_HttpResponseRedirect url.

(** [UserModel.objects.get(email=email)]. *)
Definition objects_get (email : string) : M User := λ w,
  match filter (λ u, user_email u = email) (db w) with
  | [] => (Raise DoesNotExist, w)
  | [u] => (Return u, w)
  | _ => (Raise MultipleObjectsReturned, w)
  end.

End Views.

Module AdminLoginView.
Section View.
Context (cfg : Conf) (dj : Django).

Definition _BAD_CREDENTIALS : string := "Wrong email or password".
Definition _NON_STAFF : string :=
  "To access admin panel, you must login as a staff member".

Definition _render (request : HttpRequest) (next : string)
    (error : option string) : M HttpResponse :=
  mret (TemplateResponse "firebase_authentication/login.html"
          {| firebase_web_api_key := WEB_API_KEY cfg;
             firebase_auth_domain := AUTH_DOMAIN cfg;
             enable_google_login := ENABLE_GOOGLE_LOGIN cfg;
             jwt_header_name := JWT_HEADER_NAME cfg;
             firebase_auth_endpoint := reverse_authenticate dj;
             login_redirect_url := next;
             error := error |}).

Definition _get_next (query : QueryDict) : outcome string :=
  let next := QueryDict_get query "next" in
  next ← (if truthy_str next
          then match resolve_url dj (default "" next) with
               | Return url => Return (Some url)
               | Raise NoReverseMatch => Return next
               | Raise e => Raise e
               end
          else Return next);
  if truthy_str next
  then Return (default "" next)
  else resolve_url dj (ADMIN_LOGIN_REDIRECT_URL cfg).

Definition get (request : HttpRequest) : M HttpResponse :=
  next ← lift (_get_next (GET request));
  user ← get_request_user;
  match user with
  | Some user =>
      if is_staff user
      then lift (redirect dj next)
      else _render request next (Some _NON_STAFF)
  | None => _render request next None
  end.

Definition post (request : HttpRequest) : M HttpResponse :=
  next ← lift (_get_next (POST request));
  let email := QueryDict_get (POST request) "email" in
  if negb (truthy_str email)
  then _render request next (Some "Email field must be non-empty")
  else
    let password := QueryDict_get (POST request) "password" in
    if negb (truthy_str password)
    then _render request next (Some "Password field must be non-empty")
    else
      r ← catch (objects_get (default "" email));
      match r with
      | Raise DoesNotExist => _render request next (Some _BAD_CREDENTIALS)
      | Raise e => raise e
      | Return user =>
          if check_password dj user (default "" password)
          then
            login user (AUTH_BACKEND cfg);;
            request_user ← get_request_user;
            if from_option is_staff false request_user
            then lift (redirect dj next)
            else _render request next (Some _NON_STAFF)
          else _render request next (Some _BAD_CREDENTIALS)
      end.

End View.
End AdminLoginView.

(** ** Worlds and responses named in the statements *)

Definition ok_response : HttpResponse := JsonResponse [("status", "ok")] 200.

Definition error_response (cls : AuthError) : HttpResponse :=
  JsonResponse
    [("error", error_type cls); ("description", error_description cls)] 401.

(** The world after the call to the user getter. *)
Definition resolved (w : World) (payload : Token) (users : list User) : World :=
  {| request_user := request_user w; db := users;
     calls := calls w ++ [EvResolve payload] |}.

(** The world after [login]. *)
Definition logged_in (w : World) (user : User) (backend : string) : World :=
  {| request_user := Some user; db := db w;
     calls := calls w ++ [EvLogin user backend] |}.

(** The page [_render] produces for a redirect target and a message. *)
Definition login_page (cfg : Conf) (dj : Django) (next : string)
    (error : option string) : HttpResponse :=
  TemplateResponse "firebase_authentication/login.html"
    {| firebase_web_api_key := WEB_API_KEY cfg;
       firebase_auth_domain := AUTH_DOMAIN cfg;
       enable_google_login := ENABLE_GOOGLE_LOGIN cfg;
       jwt_header_name := JWT_HEADER_NAME cfg;
       firebase_auth_endpoint := reverse_authenticate dj;
       login_redirect_url := next;
       error := error |}.

(** The value the staff form submits as redirect target, in the words of
    the specification: the [next] parameter when one is present and
    non-empty, the configured admin-login redirect URL otherwise. *)
Definition submitted_next (cfg : Conf) (query : QueryDict) : string :=
  match QueryDict_get query "next" with
  | Some (String _ _ as next) => next
  | _ => ADMIN_LOGIN_REDIRECT_URL cfg
  end.

(** ** Concrete deployments, used to run the views *)

Module Demo.

Definition cfg : Conf :=
  {| AUTH_BACKEND := "django.contrib.auth.backends.ModelBackend";
     WEB_API_KEY := "web-api-key";
     AUTH_DOMAIN := "example.firebaseapp.com";
     JWT_HEADER_NAME := "X-Firebase-JWT";
     ALLOW_NOT_CONFIRMED_EMAILS := false;
     ENABLE_GOOGLE_LOGIN := false;
     ADMIN_LOGIN_REDIRECT_URL := "admin:index" |}.

Definition alice_claims : Token :=
  {[ "email" := PyStr "alice@example.org"; "email_verified" := PyBool true ]}.

Definition carol_claims : Token :=
  {[ "email" := PyStr "carol@example.org"; "email_verified" := PyBool false ]}.

Definition dave_claims : Token :=
  {[ "email" := PyStr "dave@example.org"; "email_verified" := PyBool true ]}.

(** A verifier that knows three good tokens and one expired token.  As
    [firebase_admin.auth.verify_id_token] documents, an empty token is
    rejected with [ValueError] and any other one with a
    [FirebaseError]. *)
Definition fb : Firebase :=
  {| verify_id_token := λ jwt,
       if String.eqb jwt "alice-token" then Return alice_claims
       else if String.eqb jwt "carol-token" then Return carol_claims
       else if String.eqb jwt "dave-token" then Return dave_claims
       else if String.eqb jwt "stale-token" then Raise ExpiredIdTokenError
       else if String.eqb jwt "" then Raise ValueError
       else Raise FirebaseError |}.

(** URL names resolve to their paths, paths resolve to themselves and
    anything else has no reverse match; a redirect to a [javascript:]
    URL is refused. *)
Definition dj : Django :=
  {| resolve_url := λ to,
       if String.eqb to "admin:index" then Return "/admin/"
       else if String.eqb to "reports" then Return "/reports/"
       else if String.prefix "/" to then Return to
       else Raise NoReverseMatch;
     reverse_authenticate := "/firebase/authenticate/";
     check_password := λ user raw, String.eqb (user_password user) raw;
     allowed_scheme := λ url, negb (String.prefix "javascript:" url) |}.

Definition alice : User :=
  {| user_email := "alice@example.org"; user_password := "s3cret"; is_staff := true |}.

Definition bob : User :=
  {| user_email := "bob@example.org"; user_password := "hunter2"; is_staff := false |}.

Definition world : World :=
  {| request_user := None; db := [alice; bob]; calls := [] |}.

Definition token_request (jwt : string) : HttpRequest :=
  {| headers := {[ "X-Firebase-JWT" := jwt ]}; GET := ∅; POST := ∅ |}.

Definition bare_request : HttpRequest :=
  {| headers := ∅; GET := ∅; POST := ∅ |}.

Definition form_request (email password : string) : HttpRequest :=
  {| headers := ∅; GET := ∅;
     POST := {[ "email" := [email]; "password" := [password] ]} |}.

Definition form_request_next (email password next : string) : HttpRequest :=
  {| headers := ∅; GET := ∅;
     POST := {[ "email" := [email]; "password" := [password]; "next" := [next] ]} |}.

End Demo.

(** ** Loading the user getter class *)

(** [s.split(sep)] for a separator of one character: the pieces between
    the occurrences of [sep], so one piece more than there are
    occurrences. *)
Fixpoint str_split (sep : Ascii.ascii) (s : string) : list string :=
  match s with
  | EmptyString => [EmptyString]
  | String c rest =>
      if Ascii.eqb c sep
      then EmptyString :: str_split sep rest
      else match str_split sep rest with
           | part :: parts => String c part :: parts
           | [] => [String c EmptyString]
           end
  end.

(** [sep.join(parts)]. *)
Fixpoint str_join (sep : Ascii.ascii) (parts : list string) : string :=
  match parts with
  | [] => EmptyString
  | [part] => part
  | part :: parts => part +:+ String sep (str_join sep parts)
  end.

(** [sep in s]. *)
Fixpoint str_contains (sep : Ascii.ascii) (s : string) : bool :=
  match s with
  | EmptyString => false
  | String c rest => Ascii.eqb c sep || str_contains sep rest
  end.

(** [s.count(sep)]. *)
Fixpoint str_count (sep : Ascii.ascii) (s : string) : nat :=
  match s with
  | EmptyString => 0
  | String c rest => (if Ascii.eqb c sep then 1 else 0) + str_count sep rest
  end.

(** The module level statement
    [GET_OR_CREATE_USER_MODULE, GET_OR_CREATE_USER_CLASS_NAME =
     GET_OR_CREATE_USER_CLASS.split(':')]: unpacking into two names
    raises [ValueError] unless the list has exactly two items. *)
Definition split_user_getter_class (GET_OR_CREATE_USER_CLASS : string)
    : outcome (string * string) :=
  match str_split ":"%char GET_OR_CREATE_USER_CLASS with
  | [GET_OR_CREATE_USER_MODULE; GET_OR_CREATE_USER_CLASS_NAME] =>
      Return (GET_OR_CREATE_USER_MODULE, GET_OR_CREATE_USER_CLASS_NAME)
  | _ => Raise ValueError
  end.

(** ** More of the demo deployment *)

Module Fixtures.

(** The claims of an anonymous sign-in: no email, no [email_verified]. *)
Definition anonymous_claims : Token := {[ "sub" := PyStr "anon-1" ]}.

(** A verifier that accepts one anonymous token and one unverified one,
    and fails with a non-Firebase exception when the network is down. *)
Definition fb : Firebase :=
  {| verify_id_token := λ jwt,
       if String.eqb jwt "anon-token" then Return anonymous_claims
       else if String.eqb jwt "carol-token" then Return Demo.carol_claims
       else if String.eqb jwt "offline" then Raise (OtherException "ConnectionError")
       else Raise FirebaseError |}.

(** The demo settings with unverified emails allowed. *)
Definition cfg_lenient : Conf :=
  {| AUTH_BACKEND := AUTH_BACKEND Demo.cfg;
     WEB_API_KEY := WEB_API_KEY Demo.cfg;
     AUTH_DOMAIN := AUTH_DOMAIN Demo.cfg;
     JWT_HEADER_NAME := JWT_HEADER_NAME Demo.cfg;
     ALLOW_NOT_CONFIRMED_EMAILS := true;
     ENABLE_GOOGLE_LOGIN := ENABLE_GOOGLE_LOGIN Demo.cfg;
     ADMIN_LOGIN_REDIRECT_URL := ADMIN_LOGIN_REDIRECT_URL Demo.cfg |}.

(** Settings whose admin-login redirect URL names no URL pattern. *)
Definition cfg_broken : Conf :=
  {| AUTH_BACKEND := AUTH_BACKEND Demo.cfg;
     WEB_API_KEY := WEB_API_KEY Demo.cfg;
     AUTH_DOMAIN := AUTH_DOMAIN Demo.cfg;
     JWT_HEADER_NAME := JWT_HEADER_NAME Demo.cfg;
     ALLOW_NOT_CONFIRMED_EMAILS := false;
     ENABLE_GOOGLE_LOGIN := false;
     ADMIN_LOGIN_REDIRECT_URL := "no-such-view" |}.

(** A getter whose lookup fails with a database error. *)
Definition BrokenUserGetter : AbstractUserGetter :=
  {| get_or_create_user := λ payload users,
       (Raise (OtherException "OperationalError"), users) |}.

(** A Django whose URL resolver is misconfigured: resolving anything but
    a path fails with an exception that is not [NoReverseMatch]. *)
Definition dj_misconfigured : Django :=
  {| resolve_url := λ to,
       if String.prefix "/" to then Return to
       else Raise (OtherException "ImproperlyConfigured");
     reverse_authenticate := reverse_authenticate Demo.dj;
     check_password := check_password Demo.dj;
     allowed_scheme := allowed_scheme Demo.dj |}.

(** A second account with bob's email. *)
Definition bob_again : User :=
  {| user_email := "bob@example.org"; user_password := "12345"; is_staff := true |}.

Definition world_duplicates : World :=
  {| request_user := None; db := [Demo.alice; Demo.bob; bob_again]; calls := [] |}.

(** The demo world with a user bound to the request. *)
Definition world_as (user : User) : World :=
  {| request_user := Some user; db := [Demo.alice; Demo.bob]; calls := [] |}.

Definition get_request (next : list string) : HttpRequest :=
  {| headers := ∅; GET := {[ "next" := next ]}; POST := ∅ |}.

Definition password_only_request (password : string) : HttpRequest :=
  {| headers := ∅; GET := ∅; POST := {[ "password" := [password] ]} |}.

Definition email_only_request (email : string) : HttpRequest :=
  {| headers := ∅; GET := ∅; POST := {[ "email" := [email]; "password" := [""] ]} |}.

End Fixtures.

(** ** Running the monad *)

Lemma run_bind {A B} (m : M A) (f : A → M B) (w : World) :
  (m ≫= f) w =
  match m w with
  | (Return a, w') => f a w'
  | (Raise e, w') => (Raise e, w')
  end.
Proof. reflexivity. Qed.

Lemma run_catch {A} (m : M A) (w : World) :
  catch m w = (Return (m w).1, (m w).2).
Proof. unfold catch. by destruct (m w). Qed.

Lemma truthy_str_Some (s : string) : s ≠ "" → truthy_str (Some s) = true.
Proof. by destruct s. Qed.

(** ** Token verification *)

Section VerifyFacts.
Context (cfg : Conf) (fb : Firebase).

Lemma verify_no_header (hs : HttpHeaders) (w : World) :
  hs !! JWT_HEADER_NAME cfg = None →
  _verify_firebase_account cfg fb hs w = (Raise (Auth NoAuthHeader), w).
Proof. intros Hh. unfold _verify_firebase_account. by rewrite Hh. Qed.

(** With the header present, the verifier is called exactly once and
    the rest is decided by its outcome. *)
Lemma verify_with_header (hs : HttpHeaders) (jwt : string) (w : World) :
  hs !! JWT_HEADER_NAME cfg = Some jwt →
  _verify_firebase_account cfg fb hs w =
  let w1 := {| request_user := request_user w; db := db w;
               calls := calls w ++ [EvVerify jwt] |} in
  match verify_id_token fb jwt with
  | Raise ExpiredIdTokenError => (Raise (Auth JWTExpired), w1)
  | Raise FirebaseError => (Raise (Auth JWTInvalid), w1)
  | Raise e => (Raise e, w1)
  | Return decoded_token =>
      match decoded_token !! "email_verified" with
      | None => (Raise (KeyError "email_verified"), w1)
      | Some v =>
          if negb (truthy v) && negb (ALLOW_NOT_CONFIRMED_EMAILS cfg)
          then (Raise (Auth EmailNotVerified), w1)
          else (Return decoded_token, w1)
      end
  end.
Proof.
  intros Hh. unfold _verify_firebase_account. rewrite Hh.
  rewrite run_bind, run_catch. unfold auth_verify_id_token.
  rewrite run_bind. cbn.
  destruct (verify_id_token fb jwt) as [tok|e]; cbn.
  - rewrite run_bind. unfold subscript.
    destruct (tok !! "email_verified") as [v|]; cbn; [|done].
    by destruct (negb (truthy v) && negb (ALLOW_NOT_CONFIRMED_EMAILS cfg)).
  - by destruct e.
Qed.

(** Verification never touches the session or the user table, and the
    only call it may add to the log is the one to the verifier. *)
Lemma verify_frame (hs : HttpHeaders) (w : World) :
  let w' := (_verify_firebase_account cfg fb hs w).2 in
  request_user w' = request_user w ∧ db w' = db w ∧
  ∃ evs, calls w' = calls w ++ evs ∧ ∀ u b, EvLogin u b ∉ evs.
Proof.
  destruct (hs !! JWT_HEADER_NAME cfg) as [jwt|] eqn:Hh.
  - rewrite (verify_with_header _ jwt) by done. cbn.
    assert (∀ u b, EvLogin u b ∉ [EvVerify jwt]) as Hno.
    { intros u b Hin. apply list_elem_of_singleton in Hin. discriminate. }
    destruct (verify_id_token fb jwt) as [tok|e].
    + destruct (tok !! "email_verified") as [v|];
        [destruct (negb (truthy v) && negb (ALLOW_NOT_CONFIRMED_EMAILS cfg))|];
        cbn; eauto.
    + destruct e; cbn; eauto.
  - rewrite verify_no_header by done. cbn. repeat split.
    exists []. split; [by rewrite app_nil_r|]. intros u b Hin. by apply not_elem_of_nil in Hin.
Qed.

End VerifyFacts.

(** ** The token view *)

Section AuthenticateFacts.
Context (cfg : Conf) (fb : Firebase) (user_getter : AbstractUserGetter).

(** [authenticate], one collaborator at a time. *)
Lemma authenticate_run (request : HttpRequest) (w : World) :
  authenticate cfg fb user_getter request w =
  match _verify_firebase_account cfg fb (headers request) w with
  | (Raise (Auth ex), w1) => (Return (error_response ex), w1)
  | (Raise e, w1) => (Raise e, w1)
  | (Return jwt_payload, w1) =>
      match get_or_create_user jwt_payload (db w1) with
      | (Raise UserNotFound, users) =>
          (Return (error_response UserNotRegistered), resolved w1 jwt_payload users)
      | (Raise e, users) => (Raise e, resolved w1 jwt_payload users)
      | (Return user, users) =>
          (Return ok_response,
           logged_in (resolved w1 jwt_payload users) user (AUTH_BACKEND cfg))
      end
  end.
Proof.
  unfold authenticate. rewrite run_bind, run_catch.
  destruct (_verify_firebase_account cfg fb (headers request) w) as [[tok|e] w1]; cbn.
  - rewrite run_bind, run_catch. unfold user_getter_get_or_create_user.
    destruct (get_or_create_user tok (db w1)) as [[user|e] users]; cbn.
    + done.
    + by destruct e.
  - by destruct e.
Qed.

(** C5: when the configured header is absent, [authenticate] answers
    401 with the body [{"error": "NO_AUTH_HEADER", "description":
    "Missing Firebase authentication header"}], and leaves the world as
    it was. *)
Theorem authenticate_missing_header (request : HttpRequest) (w : World) :
  headers request !! JWT_HEADER_NAME cfg = None →
  authenticate cfg fb user_getter request w =
  (Return (JsonResponse
             [("error", "NO_AUTH_HEADER");
              ("description", "Missing Firebase authentication header")] 401),
   w).
Proof.
  intros Hh. rewrite authenticate_run, verify_no_header by done. done.
Qed.

(** C6: when the header is present and the verifier rejects the token
    as expired, [authenticate] answers 401 with code [JWT_EXPIRED]. *)
Theorem authenticate_expired_token (request : HttpRequest) (w : World) (jwt : string) :
  headers request !! JWT_HEADER_NAME cfg = Some jwt →
  verify_id_token fb jwt = Raise ExpiredIdTokenError →
  (authenticate cfg fb user_getter request w).1 =
  Return (JsonResponse
            [("error", "JWT_EXPIRED");
             ("description", "Firebase authentication token is expired")] 401).
Proof.
  intros Hh Hv. rewrite authenticate_run, (verify_with_header _ _ _ jwt) by done.
  cbn. by rewrite Hv.
Qed.

(** X22: when the header is present and the verifier raises a
    [FirebaseError] other than [ExpiredIdTokenError], [authenticate]
    answers 401 with code [JWT_INVALID]; and every [AuthError] that
    [_verify_firebase_account] raises is answered by [authenticate] with
    a 401 carrying the body of its class. *)
Theorem authenticate_firebase_error (request : HttpRequest) (w : World) (jwt : string) :
  headers request !! JWT_HEADER_NAME cfg = Some jwt →
  verify_id_token fb jwt = Raise FirebaseError →
  (authenticate cfg fb user_getter request w).1 =
  Return (JsonResponse
            [("error", "JWT_INVALID");
             ("description", "Firebase authentication token is invalid")] 401)
  ∧ ∀ request' w' ex,
      (_verify_firebase_account cfg fb (headers request') w').1 = Raise (Auth ex) →
      (authenticate cfg fb user_getter request' w').1 =
      Return (JsonResponse (make_response_body ex) 401).
Proof.
  intros Hh Hv. split.
  - rewrite authenticate_run, (verify_with_header _ _ _ jwt) by done.
    cbn. by rewrite Hv.
  - intros request' w' ex Hex. rewrite authenticate_run.
    destruct (_verify_firebase_account cfg fb (headers request') w') as [r w1].
    cbn in Hex. by subst r.
Qed.

(** C3: a token that verifies, whose [email_verified] claim passes the
    check and whose claims the getter maps to a user, makes
    [authenticate] call the verifier, then the getter, then [login], in
    that order and nothing else, and answer 200 with [{"status":
    "ok"}]; the request then carries that user. *)
Theorem authenticate_success (request : HttpRequest) (w : World) (jwt : string)
    (payload : Token) (v : pyvalue) (user : User) (users : list User) :
  headers request !! JWT_HEADER_NAME cfg = Some jwt →
  verify_id_token fb jwt = Return payload →
  payload !! "email_verified" = Some v →
  truthy v || ALLOW_NOT_CONFIRMED_EMAILS cfg = true →
  get_or_create_user payload (db w) = (Return user, users) →
  authenticate cfg fb user_getter request w =
  (Return (JsonResponse [("status", "ok")] 200),
   {| request_user := Some user;
      db := users;
      calls := calls w ++
               [EvVerify jwt; EvResolve payload; EvLogin user (AUTH_BACKEND cfg)] |}).
Proof.
  intros Hh Hv Hclaim Hcheck Hget.
  rewrite authenticate_run, (verify_with_header _ _ _ jwt) by done.
  cbn. rewrite Hv, Hclaim.
  replace (negb (truthy v) && negb (ALLOW_NOT_CONFIRMED_EMAILS cfg)) with false
    by (destruct (truthy v), (ALLOW_NOT_CONFIRMED_EMAILS cfg); done).
  cbn. rewrite Hget. unfold logged_in, resolved, ok_response. cbn.
  by rewrite <- !app_assoc.
Qed.

(** C4: whenever [authenticate] answers with status 401, the user bound
    to the request is the one it had before, and [login] is not among
    the calls made. *)
Theorem authenticate_error_keeps_session (request : HttpRequest) (w : World) (body : json) :
  (authenticate cfg fb user_getter request w).1 = Return (JsonResponse body 401) →
  request_user (authenticate cfg fb user_getter request w).2 = request_user w ∧
  ∃ evs, calls (authenticate cfg fb user_getter request w).2 = calls w ++ evs ∧
         ∀ user backend, EvLogin user backend ∉ evs.
Proof.
  rewrite authenticate_run.
  destruct (verify_frame cfg fb (headers request) w) as (Hu & Hdb & evs & Hevs & Hno).
  destruct (_verify_firebase_account cfg fb (headers request) w) as [[tok|e] w1];
    cbn in Hu, Hdb, Hevs.
  - destruct (get_or_create_user tok (db w1)) as [[user|e] users]; cbn.
    + discriminate.
    + intros Hr. assert (e = UserNotFound) as -> by (by destruct e). cbn.
      split; [done|]. exists (evs ++ [EvResolve tok]).
      split; [by rewrite Hevs, app_assoc|].
      intros u b [Hin|Hin]%elem_of_app; [by eapply Hno|].
      apply list_elem_of_singleton in Hin. discriminate.
  - intros Hr. assert (∃ ex, e = Auth ex) as [ex ->] by (destruct e; by eauto).
    cbn. eauto.
Qed.

(** C7: for a token that verifies but whose [email_verified] claim is
    falsy, [authenticate] answers 401 with code [EMAIL_NOT_VERIFIED]
    exactly when [ALLOW_NOT_CONFIRMED_EMAILS] is off; when it is on,
    verification returns the claims and the user getter is called. *)
Theorem authenticate_unverified_email (request : HttpRequest) (w : World) (jwt : string)
    (payload : Token) (v : pyvalue) :
  headers request !! JWT_HEADER_NAME cfg = Some jwt →
  verify_id_token fb jwt = Return payload →
  payload !! "email_verified" = Some v →
  truthy v = false →
  ((authenticate cfg fb user_getter request w).1 =
     Return (JsonResponse
               [("error", "EMAIL_NOT_VERIFIED");
                ("description", "User email has not been verified")] 401)
   ↔ ALLOW_NOT_CONFIRMED_EMAILS cfg = false)
  ∧ (ALLOW_NOT_CONFIRMED_EMAILS cfg = true →
     (_verify_firebase_account cfg fb (headers request) w).1 = Return payload ∧
     EvResolve payload ∈ calls (authenticate cfg fb user_getter request w).2).
Proof.
  intros Hh Hv Hclaim Hfalsy.
  rewrite authenticate_run, (verify_with_header _ _ _ jwt) by done.
  cbn. rewrite Hv, Hclaim, Hfalsy. cbn.
  destruct (ALLOW_NOT_CONFIRMED_EMAILS cfg); cbn.
  - split; [|intros _; split; [done|]].
    + split; [|done].
      destruct (get_or_create_user payload (db w)) as [[user|e] users]; cbn;
        [done|by destruct e].
    + destruct (get_or_create_user payload (db w)) as [[user|e] users]; cbn;
        [|destruct e; cbn]; set_solver.
  - split; [done|]. done.
Qed.

(** C8: when the token verifies and passes the email check but the
    getter raises [UserNotFound], [authenticate] answers 401 with code
    [USER_NOT_REGISTERED]. *)
Theorem authenticate_user_not_found (request : HttpRequest) (w : World) (jwt : string)
    (payload : Token) (v : pyvalue) :
  headers request !! JWT_HEADER_NAME cfg = Some jwt →
  verify_id_token fb jwt = Return payload →
  payload !! "email_verified" = Some v →
  truthy v || ALLOW_NOT_CONFIRMED_EMAILS cfg = true →
  (get_or_create_user payload (db w)).1 = Raise UserNotFound →
  (authenticate cfg fb user_getter request w).1 =
  Return (JsonResponse
            [("error", "USER_NOT_REGISTERED");
             ("description", "This user has not been registered")] 401).
Proof.
  intros Hh Hv Hclaim Hcheck Hget.
  rewrite authenticate_run, (verify_with_header _ _ _ jwt) by done.
  cbn. rewrite Hv, Hclaim.
  replace (negb (truthy v) && negb (ALLOW_NOT_CONFIRMED_EMAILS cfg)) with false
    by (destruct (truthy v), (ALLOW_NOT_CONFIRMED_EMAILS cfg); done).
  cbn. destruct (get_or_create_user payload (db w)) as [r users].
  cbn in Hget. by subst r.
Qed.

End AuthenticateFacts.

(** ** The staff login form *)

Section AdminLoginFacts.
Context (cfg : Conf) (dj : Django).

Import AdminLoginView.

Lemma render_run (request : HttpRequest) (next : string) (error : option string)
    (w : World) :
  _render cfg dj request next error w = (Return (login_page cfg dj next error), w).
Proof. reflexivity. Qed.

(** A submitted, non-empty [next] that resolves to a non-empty URL is
    the target. *)
Lemma get_next_submitted (query : QueryDict) (next url : string) :
  QueryDict_get query "next" = Some next → next ≠ "" →
  resolve_url dj next = Return url → url ≠ "" →
  _get_next cfg dj query = Return url.
Proof.
  intros Hq Hne Hres Hurl. unfold _get_next. rewrite Hq.
  rewrite truthy_str_Some by done. cbn. rewrite Hres. cbn.
  by destruct url.
Qed.

(** A submitted [next] without reverse match is kept as it is. *)
Lemma get_next_unresolved (query : QueryDict) (next : string) :
  QueryDict_get query "next" = Some next → next ≠ "" →
  resolve_url dj next = Raise NoReverseMatch →
  _get_next cfg dj query = Return next.
Proof.
  intros Hq Hne Hres. unfold _get_next. rewrite Hq.
  rewrite truthy_str_Some by done. cbn. rewrite Hres. cbn.
  by destruct next.
Qed.

(** Without a non-empty [next] the configured URL is resolved. *)
Lemma get_next_default (query : QueryDict) :
  truthy_str (QueryDict_get query "next") = false →
  _get_next cfg dj query = resolve_url dj (ADMIN_LOGIN_REDIRECT_URL cfg).
Proof.
  intros Hq. unfold _get_next. rewrite Hq. cbn. by rewrite Hq.
Qed.

Lemma get_next_submitted_next (query : QueryDict) (url : string) :
  resolve_url dj (submitted_next cfg query) = Return url → url ≠ "" →
  _get_next cfg dj query = Return url.
Proof.
  unfold submitted_next. intros Hres Hurl.
  destruct (QueryDict_get query "next") as [[|a next]|] eqn:Hq.
  - by rewrite get_next_default by (by rewrite Hq).
  - by apply (get_next_submitted _ (String a next)).
  - by rewrite get_next_default by (by rewrite Hq).
Qed.

Lemma redirect_resolved (url : string) :
  resolve_url dj url = Return url →
  allowed_scheme dj url = true →
  redirect dj url = Return (HttpResponseRedirect url).
Proof.
  intros Hres Hok. unfold redirect, new_HttpResponseRedirect.
  rewrite Hres. cbn. by rewrite Hok.
Qed.

(** [post] once the target is known and both fields are filled in. *)
Lemma post_run (request : HttpRequest) (w : World) (next email password : string) :
  _get_next cfg dj (POST request) = Return next →
  QueryDict_get (POST request) "email" = Some email → email ≠ "" →
  QueryDict_get (POST request) "password" = Some password → password ≠ "" →
  post cfg dj request w =
  match objects_get email w with
  | (Raise DoesNotExist, _) =>
      (Return (login_page cfg dj next (Some _BAD_CREDENTIALS)), w)
  | (Raise e, _) => (Raise e, w)
  | (Return user, _) =>
      if check_password dj user password
      then
        (if is_staff user
         then redirect dj next
         else Return (login_page cfg dj next (Some _NON_STAFF)),
         logged_in w user (AUTH_BACKEND cfg))
      else (Return (login_page cfg dj next (Some _BAD_CREDENTIALS)), w)
  end.
Proof.
  intros Hnext He Hene Hp Hpne. unfold post.
  rewrite run_bind. unfold lift at 1. rewrite Hnext, He, Hp.
  rewrite !truthy_str_Some by done. cbn [negb default from_option id].
  rewrite run_bind, run_catch.
  assert ((objects_get email w).2 = w) as Hw.
  { unfold objects_get.
    by destruct (filter (λ u, user_email u = email) (db w)) as [|? [|? ?]]. }
  destruct (objects_get email w) as [[user|e] w1]; cbn in Hw; subst w1; cbn.
  - destruct (check_password dj user password); [|done].
    rewrite run_bind. cbn. rewrite run_bind. cbn.
    by destruct (is_staff user).
  - by destruct e.
Qed.

(** C1, as the code has it: when the email names one user and the
    password is right, [post] logs that user in whether or not the
    user is staff; a staff user is handed to [redirect], and a
    non-staff user gets the form again with the "not staff" message,
    with the session already established. *)
Theorem post_correct_password (request : HttpRequest) (w : World)
    (next email password : string) (user : User) :
  _get_next cfg dj (POST request) = Return next →
  QueryDict_get (POST request) "email" = Some email → email ≠ "" →
  QueryDict_get (POST request) "password" = Some password → password ≠ "" →
  (objects_get email w).1 = Return user →
  check_password dj user password = true →
  (post cfg dj request w).2 =
    {| request_user := Some user; db := db w;
       calls := calls w ++ [EvLogin user (AUTH_BACKEND cfg)] |}
  ∧ (is_staff user = true → (post cfg dj request w).1 = redirect dj next)
  ∧ (is_staff user = false →
     (post cfg dj request w).1 =
     Return (login_page cfg dj next
               (Some "To access admin panel, you must login as a staff member"))).
Proof.
  intros Hnext He Hene Hp Hpne Hget Hpw.
  rewrite (post_run _ _ next email password) by done.
  destruct (objects_get email w) as [r w1]. cbn in Hget. subst r.
  rewrite Hpw. cbn. split; [done|]. split; by intros ->.
Qed.

(** X23: for a staff user with the right password, when the submitted
    target (the [next] parameter if present and non-empty, the
    configured URL otherwise) resolves to a non-empty URL, [post]
    answers with [redirect] of that URL; this is an HTTP redirect to it
    when the URL resolves to itself and [HttpResponseRedirect] allows
    its scheme. *)
Theorem post_staff_redirect (request : HttpRequest) (w : World)
    (url email password : string) (user : User) :
  QueryDict_get (POST request) "email" = Some email → email ≠ "" →
  QueryDict_get (POST request) "password" = Some password → password ≠ "" →
  (objects_get email w).1 = Return user →
  check_password dj user password = true →
  is_staff user = true →
  resolve_url dj (submitted_next cfg (POST request)) = Return url → url ≠ "" →
  (post cfg dj request w).1 = redirect dj url
  ∧ (resolve_url dj url = Return url → allowed_scheme dj url = true →
     (post cfg dj request w).1 = Return (HttpResponseRedirect url)).
Proof.
  intros He Hene Hp Hpne Hget Hpw Hstaff Hres Hurl.
  assert ((post cfg dj request w).1 = redirect dj url) as Hpost.
  { rewrite (post_run _ _ url email password)
      by eauto using get_next_submitted_next.
    destruct (objects_get email w) as [r w1]. cbn in Hget. subst r.
    by rewrite Hpw, Hstaff. }
  split; [done|]. intros Hid Hscheme. by rewrite Hpost, redirect_resolved.
Qed.


End AdminLoginFacts.

(** ** The theorems at work on the demo deployment *)

Section DemoRuns.
Import Demo.

Lemma authenticate_missing_header_witness :
  headers bare_request !! JWT_HEADER_NAME cfg = None ∧
  authenticate cfg fb (EmailUserGetter false) bare_request world =
  (Return (JsonResponse
             [("error", "NO_AUTH_HEADER");
              ("description", "Missing Firebase authentication header")] 401),
   world).
Proof.
  split; [reflexivity|].
  apply (authenticate_missing_header cfg fb (EmailUserGetter false) bare_request world).
  reflexivity.
Defined.

Lemma authenticate_expired_token_witness :
  headers (token_request "stale-token") !! JWT_HEADER_NAME cfg = Some "stale-token" ∧
  verify_id_token fb "stale-token" = Raise ExpiredIdTokenError ∧
  (authenticate cfg fb (EmailUserGetter false) (token_request "stale-token") world).1 =
  Return (JsonResponse
            [("error", "JWT_EXPIRED");
             ("description", "Firebase authentication token is expired")] 401).
Proof.
  split; [reflexivity|]. split; [reflexivity|].
  apply (authenticate_expired_token cfg fb (EmailUserGetter false)
           (token_request "stale-token") world "stale-token"); reflexivity.
Defined.

Lemma authenticate_firebase_error_witness :
  headers (token_request "garbage") !! JWT_HEADER_NAME cfg = Some "garbage" ∧
  verify_id_token fb "garbage" = Raise FirebaseError ∧
  (authenticate cfg fb (EmailUserGetter false) (token_request "garbage") world).1 =
  Return (JsonResponse
            [("error", "JWT_INVALID");
             ("description", "Firebase authentication token is invalid")] 401).
Proof.
  split; [reflexivity|]. split; [reflexivity|].
  apply (authenticate_firebase_error cfg fb (EmailUserGetter false)
           (token_request "garbage") world "garbage"); reflexivity.
Defined.

Lemma authenticate_success_witness :
  headers (token_request "alice-token") !! JWT_HEADER_NAME cfg = Some "alice-token" ∧
  verify_id_token fb "alice-token" = Return alice_claims ∧
  alice_claims !! "email_verified" = Some (PyBool true) ∧
  truthy (PyBool true) || ALLOW_NOT_CONFIRMED_EMAILS cfg = true ∧
  @get_or_create_user (EmailUserGetter false) alice_claims (db world) =
    (Return alice, [alice; bob]) ∧
  authenticate cfg fb (EmailUserGetter false) (token_request "alice-token") world =
  (Return (JsonResponse [("status", "ok")] 200),
   {| request_user := Some alice;
      db := [alice; bob];
      calls := [EvVerify "alice-token"; EvResolve alice_claims;
                EvLogin alice "django.contrib.auth.backends.ModelBackend"] |}).
Proof.
  do 5 (split; [reflexivity|]).
  apply (authenticate_success cfg fb (EmailUserGetter false)
           (token_request "alice-token") world "alice-token" alice_claims
           (PyBool true) alice [alice; bob]); reflexivity.
Defined.

Lemma authenticate_error_keeps_session_witness :
  (authenticate cfg fb (EmailUserGetter false) (token_request "dave-token") world).1 =
    Return (JsonResponse
              [("error", "USER_NOT_REGISTERED");
               ("description", "This user has not been registered")] 401) ∧
  request_user
    (authenticate cfg fb (EmailUserGetter false) (token_request "dave-token") world).2 =
    None ∧
  ∃ evs,
    calls (authenticate cfg fb (EmailUserGetter false)
             (token_request "dave-token") world).2 = calls world ++ evs ∧
    ∀ user backend, EvLogin user backend ∉ evs.
Proof.
  split; [reflexivity|].
  apply (authenticate_error_keeps_session cfg fb (EmailUserGetter false)
           (token_request "dave-token") world
           [("error", "USER_NOT_REGISTERED");
            ("description", "This user has not been registered")]).
  reflexivity.
Defined.

Lemma authenticate_unverified_email_witness :
  headers (token_request "carol-token") !! JWT_HEADER_NAME cfg = Some "carol-token" ∧
  verify_id_token fb "carol-token" = Return carol_claims ∧
  carol_claims !! "email_verified" = Some (PyBool false) ∧
  truthy (PyBool false) = false ∧
  ((authenticate cfg fb (EmailUserGetter true) (token_request "carol-token") world).1 =
     Return (JsonResponse
               [("error", "EMAIL_NOT_VERIFIED");
                ("description", "User email has not been verified")] 401)
   ↔ ALLOW_NOT_CONFIRMED_EMAILS cfg = false).
Proof.
  do 4 (split; [reflexivity|]).
  apply (authenticate_unverified_email cfg fb (EmailUserGetter true)
           (token_request "carol-token") world "carol-token" carol_claims
           (PyBool false)); reflexivity.
Defined.

Lemma authenticate_user_not_found_witness :
  headers (token_request "dave-token") !! JWT_HEADER_NAME cfg = Some "dave-token" ∧
  verify_id_token fb "dave-token" = Return dave_claims ∧
  dave_claims !! "email_verified" = Some (PyBool true) ∧
  truthy (PyBool true) || ALLOW_NOT_CONFIRMED_EMAILS cfg = true ∧
  (@get_or_create_user (EmailUserGetter false) dave_claims (db world)).1 =
    Raise UserNotFound ∧
  (authenticate cfg fb (EmailUserGetter false) (token_request "dave-token") world).1 =
  Return (JsonResponse
            [("error", "USER_NOT_REGISTERED");
             ("description", "This user has not been registered")] 401).
Proof.
  do 5 (split; [reflexivity|]).
  apply (authenticate_user_not_found cfg fb (EmailUserGetter false)
           (token_request "dave-token") world "dave-token" dave_claims
           (PyBool true)); reflexivity.
Defined.

End DemoRuns.

Section DemoFormRuns.
Import Demo AdminLoginView.

Lemma post_correct_password_witness :
  _get_next cfg dj (POST (form_request "bob@example.org" "hunter2")) = Return "/admin/" ∧
  (objects_get "bob@example.org" world).1 = Return bob ∧
  check_password dj bob "hunter2" = true ∧
  is_staff bob = false ∧
  (post cfg dj (form_request "bob@example.org" "hunter2") world).2 =
    {| request_user := Some bob; db := db world;
       calls := calls world ++ [EvLogin bob (AUTH_BACKEND cfg)] |} ∧
  (post cfg dj (form_request "bob@example.org" "hunter2") world).1 =
    Return (login_page cfg dj "/admin/"
              (Some "To access admin panel, you must login as a staff member")).
Proof.
  do 4 (split; [reflexivity|]).
  destruct (post_correct_password cfg dj (form_request "bob@example.org" "hunter2")
              world "/admin/" "bob@example.org" "hunter2" bob)
    as (Hworld & _ & Hpage);
    [reflexivity|reflexivity|discriminate|reflexivity|discriminate
    |reflexivity|reflexivity|].
  split; [exact Hworld|]. apply Hpage. reflexivity.
Defined.

Lemma post_staff_redirect_witness :
  (objects_get "alice@example.org" world).1 = Return alice ∧
  check_password dj alice "s3cret" = true ∧
  is_staff alice = true ∧
  resolve_url dj
    (submitted_next cfg (POST (form_request_next "alice@example.org" "s3cret" "reports")))
    = Return "/reports/" ∧
  (post cfg dj (form_request_next "alice@example.org" "s3cret" "reports") world).1 =
    Return (HttpResponseRedirect "/reports/").
Proof.
  do 4 (split; [reflexivity|]).
  apply (post_staff_redirect cfg dj
           (form_request_next "alice@example.org" "s3cret" "reports") world
           "/reports/" "alice@example.org" "s3cret" alice);
    try reflexivity; discriminate.
Defined.


(** C1 does not hold as stated: bob is not staff, his email names one
    user and the password is right, the request starts out anonymous,
    and after [post] the request carries bob: [login] has been called
    before the staff flag is looked at. *)
Lemma post_non_staff_is_logged_in :
  (objects_get "bob@example.org" world).1 = Return bob ∧
  check_password dj bob "hunter2" = true ∧
  is_staff bob = false ∧
  request_user world = None ∧
  request_user (post cfg dj (form_request "bob@example.org" "hunter2") world).2 =
    Some bob ∧
  calls (post cfg dj (form_request "bob@example.org" "hunter2") world).2 =
    [EvLogin bob "django.contrib.auth.backends.ModelBackend"].
Proof. repeat split. Qed.

(** C9 fails on the code: alice is staff and her password is right, but
    the submitted [next] has no reverse match.  [_get_next] swallows the
    [NoReverseMatch] and keeps the submitted value, [redirect] resolves
    the same value again and this time the exception leaves [post]: the
    answer is no redirect. *)
Lemma post_staff_unresolvable_next :
  (objects_get "alice@example.org" world).1 = Return alice ∧
  check_password dj alice "s3cret" = true ∧
  is_staff alice = true ∧
  QueryDict_get (POST (form_request_next "alice@example.org" "s3cret" "dashboard"))
    "next" = Some "dashboard" ∧
  resolve_url dj "dashboard" = Raise NoReverseMatch ∧
  _get_next cfg dj (POST (form_request_next "alice@example.org" "s3cret" "dashboard"))
    = Return "dashboard" ∧
  (post cfg dj (form_request_next "alice@example.org" "s3cret" "dashboard") world).1 =
    Raise NoReverseMatch ∧
  ¬ ∃ url,
      resolve_url dj "dashboard" = Return url ∧
      (post cfg dj (form_request_next "alice@example.org" "s3cret" "dashboard")
         world).1 = Return (HttpResponseRedirect url).
Proof.
  repeat (split; [reflexivity|]). intros (url & Hres & _). discriminate Hres.
Qed.


End DemoFormRuns.

Section DemoTokenRuns.
Import Demo.

(** C2 fails on the code: the header is present with an empty value,
    so the test [jwt is None] lets it through, and the verifier rejects
    the token with [ValueError], which is neither expiry nor a
    [FirebaseError]; no [except] clause takes it and it leaves
    [authenticate] instead of the 401 with [JWT_INVALID] that every
    other rejected token gets. *)
Lemma authenticate_empty_token_raises :
  headers (token_request "") !! JWT_HEADER_NAME cfg = Some "" ∧
  verify_id_token fb "" = Raise ValueError ∧
  (authenticate cfg fb (EmailUserGetter false) (token_request "") world).1 =
    Raise ValueError ∧
  (authenticate cfg fb (EmailUserGetter false) (token_request "") world).1 ≠
    Return (JsonResponse
              [("error", "JWT_INVALID");
               ("description", "Firebase authentication token is invalid")] 401).
Proof. repeat (split; [reflexivity|]). discriminate. Qed.

End DemoTokenRuns.

(** ** Loading the user getter class: facts *)

Section SplitFacts.
Context (sep : Ascii.ascii).

Lemma str_split_nonempty (s : string) : str_split sep s ≠ [].
Proof.
  destruct s as [|c rest]; cbn; [done|].
  destruct (Ascii.eqb c sep); [done|]. by destruct (str_split sep rest).
Qed.

Lemma str_split_length (s : string) :
  length (str_split sep s) = S (str_count sep s).
Proof.
  induction s as [|c rest IH]; cbn; [done|].
  destruct (Ascii.eqb c sep); cbn; [by rewrite IH|].
  pose proof (str_split_nonempty rest) as Hne.
  destruct (str_split sep rest) as [|part parts]; [done|]. exact IH.
Qed.

Lemma str_join_split (s : string) : str_join sep (str_split sep s) = s.
Proof.
  induction s as [|c rest IH]; cbn; [done|].
  pose proof (str_split_nonempty rest) as Hne.
  destruct (Ascii.eqb c sep) eqn:Hc.
  - apply Ascii.eqb_eq in Hc as ->.
    destruct (str_split sep rest) as [|part parts]; [done|].
    by rewrite <- IH.
  - destruct (str_split sep rest) as [|part [|part' parts]]; [done|..];
      by rewrite <- IH.
Qed.

Lemma str_split_parts (s : string) :
  Forall (λ part, str_contains sep part = false) (str_split sep s).
Proof.
  induction s as [|c rest IH]; cbn.
  - by constructor.
  - destruct (Ascii.eqb c sep) eqn:Hc.
    + by constructor.
    + destruct (str_split sep rest) as [|part parts].
      * constructor; [|done]. cbn. by rewrite Hc.
      * inversion IH as [|? ? Hpart Hparts]; subst.
        constructor; [|done]. cbn. by rewrite Hc.
Qed.

Lemma str_split_without_sep (s : string) :
  str_contains sep s = false → str_split sep s = [s].
Proof.
  induction s as [|c rest IH]; cbn; [done|].
  intros [Hc Hrest]%orb_false_elim. by rewrite Hc, IH.
Qed.

Lemma str_split_at_sep (s rest : string) :
  str_contains sep s = false →
  str_split sep (s +:+ String sep rest) = s :: str_split sep rest.
Proof.
  induction s as [|c s IH].
  - intros _. change (str_split sep (String sep rest) = "" :: str_split sep rest).
    cbn -[Ascii.eqb]. by rewrite Ascii.eqb_refl.
  - cbn -[Ascii.eqb]. intros [Hc Hs]%orb_false_elim.
    change (String c s +:+ String sep rest) with (String c (s +:+ String sep rest)).
    cbn -[Ascii.eqb]. by rewrite Hc, IH.
Qed.

End SplitFacts.

(** X1: the getter path splits into a module and a class name exactly
    when it is a module, one colon and a class name, neither of which
    holds a colon; the two names are then these two pieces. *)
Theorem split_user_getter_class_ok (path module_name class_name : string) :
  split_user_getter_class path = Return (module_name, class_name)
  ↔ path = module_name +:+ String ":" class_name
    ∧ str_contains ":" module_name = false
    ∧ str_contains ":" class_name = false.
Proof.
  unfold split_user_getter_class. split.
  - intros Hsplit.
    pose proof (str_join_split ":" path) as Hjoin.
    pose proof (str_split_parts ":" path) as Hparts.
    destruct (str_split ":" path) as [|m [|n [|? ?]]]; try discriminate.
    injection Hsplit as -> ->. cbn in Hjoin.
    inversion Hparts as [|? ? Hm Hrest]; subst.
    inversion Hrest as [|? ? Hn _]; subst. done.
  - intros (-> & Hm & Hn).
    by rewrite str_split_at_sep, (str_split_without_sep _ class_name).
Qed.

(** X2: loading fails with [ValueError] exactly when the getter path
    does not hold one colon: none at all, or more than one. *)
Theorem split_user_getter_class_error (path : string) :
  split_user_getter_class path = Raise ValueError ↔ str_count ":" path ≠ 1.
Proof.
  unfold split_user_getter_class.
  pose proof (str_split_length ":" path) as Hlen.
  destruct (str_split ":" path) as [|m [|n [|? ?]]]; cbn in Hlen;
    split; intros H; try done; lia.
Qed.

(** ** The token view: what its outcomes tell *)

Lemma login_not_added (l evs : list event) (user : User) (backend : string) :
  Forall (λ ev, ∀ u b, ev ≠ EvLogin u b) evs →
  EvLogin user backend ∈ l ++ evs → EvLogin user backend ∈ l.
Proof.
  intros Hevs [Hin|Hin]%elem_of_app; [done|].
  rewrite Forall_forall in Hevs. by destruct (Hevs _ Hin user backend).
Qed.

Ltac no_login :=
  intros ? ?; cbn; rewrite <- ?app_assoc; apply login_not_added;
  repeat constructor; done.

Section AuthenticateOutcomes.
Context (cfg : Conf) (fb : Firebase) (user_getter : AbstractUserGetter).

(** X3: claims that [_verify_firebase_account] returns are the ones the
    verifier produced for the token in the header, they carry an
    [email_verified] claim, and that claim is truthy unless unverified
    emails are allowed. *)
Theorem verify_returns_checked_claims (hs : HttpHeaders) (w : World) (payload : Token) :
  (_verify_firebase_account cfg fb hs w).1 = Return payload →
  ∃ jwt v,
    hs !! JWT_HEADER_NAME cfg = Some jwt ∧
    verify_id_token fb jwt = Return payload ∧
    payload !! "email_verified" = Some v ∧
    truthy v || ALLOW_NOT_CONFIRMED_EMAILS cfg = true.
Proof.
  destruct (hs !! JWT_HEADER_NAME cfg) as [jwt|] eqn:Hh.
  - rewrite (verify_with_header _ _ _ jwt) by done. cbn.
    destruct (verify_id_token fb jwt) as [tok|e] eqn:Hv; [|by destruct e].
    destruct (tok !! "email_verified") as [v|] eqn:Hclaim; [|done].
    destruct (truthy v) eqn:Hv', (ALLOW_NOT_CONFIRMED_EMAILS cfg) eqn:Hallow;
      cbn; try done; intros [= <-]; exists jwt, v; by rewrite Hv', ?Hallow.
  - by rewrite verify_no_header.
Qed.

(** A 200 answer traced back through the three collaborators. *)
Lemma authenticate_ok_trace (request : HttpRequest) (w : World) (body : json) :
  (authenticate cfg fb user_getter request w).1 = Return (JsonResponse body 200) →
  ∃ jwt payload v user users,
    headers request !! JWT_HEADER_NAME cfg = Some jwt ∧
    verify_id_token fb jwt = Return payload ∧
    payload !! "email_verified" = Some v ∧
    truthy v || ALLOW_NOT_CONFIRMED_EMAILS cfg = true ∧
    get_or_create_user payload (db w) = (Return user, users) ∧
    body = [("status", "ok")] ∧
    (authenticate cfg fb user_getter request w).2 =
      {| request_user := Some user; db := users;
         calls := calls w ++
                  [EvVerify jwt; EvResolve payload; EvLogin user (AUTH_BACKEND cfg)] |}.
Proof.
  rewrite authenticate_run.
  destruct (headers request !! JWT_HEADER_NAME cfg) as [jwt|] eqn:Hh.
  2:{ by rewrite verify_no_header. }
  rewrite (verify_with_header _ _ _ jwt) by done. cbn.
  destruct (verify_id_token fb jwt) as [payload|e] eqn:Hv; [|by destruct e].
  destruct (payload !! "email_verified") as [v|] eqn:Hclaim; [|done].
  destruct (negb (truthy v) && negb (ALLOW_NOT_CONFIRMED_EMAILS cfg)) eqn:Hcheck;
    [done|].
  cbn. destruct (get_or_create_user payload (db w)) as [[user|e] users] eqn:Hget;
    cbn; [|by destruct e].
  intros [= <-]. exists jwt, payload, v, user, users.
  repeat (split; [done|]).
  split; [by destruct (truthy v), (ALLOW_NOT_CONFIRMED_EMAILS cfg)|].
  split; [done|]. split; [done|].
  unfold logged_in, resolved. cbn. by rewrite <- !app_assoc.
Qed.

(** X4: a 200 answer of [authenticate] is always the fruit of a full
    login: the header held a token, the verifier accepted it, the email
    check passed, the getter returned a user, and that user is now bound
    to the request through a single [login] after the two other calls. *)
Theorem authenticate_ok_inv (request : HttpRequest) (w : World) (body : json) :
  (authenticate cfg fb user_getter request w).1 = Return (JsonResponse body 200) →
  ∃ jwt payload v user users,
    headers request !! JWT_HEADER_NAME cfg = Some jwt ∧
    verify_id_token fb jwt = Return payload ∧
    payload !! "email_verified" = Some v ∧
    truthy v || ALLOW_NOT_CONFIRMED_EMAILS cfg = true ∧
    get_or_create_user payload (db w) = (Return user, users) ∧
    body = [("status", "ok")] ∧
    (authenticate cfg fb user_getter request w).2 =
      {| request_user := Some user; db := users;
         calls := calls w ++
                  [EvVerify jwt; EvResolve payload; EvLogin user (AUTH_BACKEND cfg)] |}.
Proof. apply authenticate_ok_trace. Qed.

(** X5: an answer of [authenticate] is the success payload with status
    200 or the body of one of the [AuthError] classes with status 401;
    it is never a page or a redirect, and no other status occurs. *)
Theorem authenticate_response_shape (request : HttpRequest) (w : World)
    (response : HttpResponse) :
  (authenticate cfg fb user_getter request w).1 = Return response →
  response = JsonResponse [("status", "ok")] 200
  ∨ ∃ cls, response = JsonResponse (make_response_body cls) 401.
Proof.
  rewrite authenticate_run.
  destruct (_verify_firebase_account cfg fb (headers request) w) as [[payload|e] w1].
  - destruct (get_or_create_user payload (db w1)) as [[user|e] users]; cbn.
    + intros [= <-]. by left.
    + destruct e; cbn; try done. intros [= <-]. right. by exists UserNotRegistered.
  - destruct e; cbn; try done. intros [= <-]. right. by eexists.
Qed.

(** X6: when [authenticate] raises, the user bound to the request is
    the one it had before and [login] has not been called; and the
    exception is not of the module's making unless it is the [KeyError]
    of a token without [email_verified] claim: it was raised by the
    verifier (and is neither a [FirebaseError] nor an [AuthError]) or by
    the user getter (and is not [UserNotFound]). *)
Theorem authenticate_raise_inv (request : HttpRequest) (w : World) (e : exn) :
  (authenticate cfg fb user_getter request w).1 = Raise e →
  request_user (authenticate cfg fb user_getter request w).2 = request_user w
  ∧ (∀ user backend,
       EvLogin user backend ∈ calls (authenticate cfg fb user_getter request w).2 →
       EvLogin user backend ∈ calls w)
  ∧ ∃ jwt, headers request !! JWT_HEADER_NAME cfg = Some jwt ∧
      ((verify_id_token fb jwt = Raise e ∧
        e ≠ ExpiredIdTokenError ∧ e ≠ FirebaseError ∧ ∀ cls, e ≠ Auth cls)
       ∨ (∃ payload, verify_id_token fb jwt = Return payload ∧
            payload !! "email_verified" = None ∧ e = KeyError "email_verified")
       ∨ (∃ payload, verify_id_token fb jwt = Return payload ∧
            (get_or_create_user payload (db w)).1 = Raise e ∧ e ≠ UserNotFound)).
Proof.
  rewrite authenticate_run.
  destruct (headers request !! JWT_HEADER_NAME cfg) as [jwt|] eqn:Hh.
  2:{ by rewrite verify_no_header. }
  rewrite (verify_with_header _ _ _ jwt) by done. cbn.
  destruct (verify_id_token fb jwt) as [payload|e0] eqn:Hv.
  - destruct (payload !! "email_verified") as [v|] eqn:Hclaim.
    + destruct (negb (truthy v) && negb (ALLOW_NOT_CONFIRMED_EMAILS cfg)); [done|].
      cbn. destruct (get_or_create_user payload (db w)) as [[user|e1] users] eqn:Hget;
        cbn; [done|].
      destruct e1; cbn; try done; intros [= ?]; subst e;
        (split; [done|]); (split; [no_login|]);
        exists jwt; (split; [done|]); right; right; exists payload; by rewrite Hget.
    + cbn. intros [= <-]. split; [done|]. split; [no_login|].
      exists jwt. split; [done|]. right; left. by exists payload.
  - destruct e0; cbn; try done; intros [= ?]; subst e;
      (split; [done|]); (split; [no_login|]);
      exists jwt; (split; [done|]); left; done.
Qed.

(** X7: a token the verifier accepts but which has no [email_verified]
    claim makes [authenticate] raise [KeyError], whether or not
    unverified emails are allowed; the getter is not called and nobody
    is logged in. *)
Theorem authenticate_missing_claim (request : HttpRequest) (w : World) (jwt : string)
    (payload : Token) :
  headers request !! JWT_HEADER_NAME cfg = Some jwt →
  verify_id_token fb jwt = Return payload →
  payload !! "email_verified" = None →
  authenticate cfg fb user_getter request w =
  (Raise (KeyError "email_verified"),
   {| request_user := request_user w; db := db w;
      calls := calls w ++ [EvVerify jwt] |}).
Proof.
  intros Hh Hv Hclaim.
  rewrite authenticate_run, (verify_with_header _ _ _ jwt) by done.
  cbn. by rewrite Hv, Hclaim.
Qed.

End AuthenticateOutcomes.

(** ** The staff login form: every path *)

Section AdminLoginPaths.
Context (cfg : Conf) (dj : Django).

Import AdminLoginView.

(** [post], path by path. *)
Lemma post_unfold (request : HttpRequest) (w : World) :
  post cfg dj request w =
  match _get_next cfg dj (POST request) with
  | Raise e => (Raise e, w)
  | Return next =>
      match QueryDict_get (POST request) "email" with
      | Some (String _ _ as email) =>
          match QueryDict_get (POST request) "password" with
          | Some (String _ _ as password) =>
              match filter (λ u, user_email u = email) (db w) with
              | [] => (Return (login_page cfg dj next (Some _BAD_CREDENTIALS)), w)
              | [user] =>
                  if check_password dj user password
                  then
                    (if is_staff user
                     then redirect dj next
                     else Return (login_page cfg dj next (Some _NON_STAFF)),
                     logged_in w user (AUTH_BACKEND cfg))
                  else (Return (login_page cfg dj next (Some _BAD_CREDENTIALS)), w)
              | _ => (Raise MultipleObjectsReturned, w)
              end
          | _ =>
              (Return (login_page cfg dj next
                         (Some "Password field must be non-empty")), w)
          end
      | _ =>
          (Return (login_page cfg dj next (Some "Email field must be non-empty")), w)
      end
  end.
Proof.
  unfold post. rewrite run_bind. unfold lift at 1.
  destruct (_get_next cfg dj (POST request)) as [next|e]; [|done].
  destruct (QueryDict_get (POST request) "email") as [[|a email]|]; [done| |done].
  destruct (QueryDict_get (POST request) "password") as [[|b password]|];
    [done| |done].
  cbn [truthy_str negb default from_option id].
  rewrite run_bind, run_catch. unfold objects_get.
  destruct (filter (λ u, user_email u = String a email) (db w)) as [|user [|? ?]];
    cbn; [done| |done].
  destruct (check_password dj user (String b password)); [|done].
  rewrite run_bind. cbn. rewrite run_bind. cbn.
  by destruct (is_staff user).
Qed.

(** [get], path by path. *)
Lemma get_unfold (request : HttpRequest) (w : World) :
  get cfg dj request w =
  match _get_next cfg dj (GET request) with
  | Raise e => (Raise e, w)
  | Return next =>
      match request_user w with
      | Some user =>
          if is_staff user
          then (redirect dj next, w)
          else (Return (login_page cfg dj next (Some _NON_STAFF)), w)
      | None => (Return (login_page cfg dj next None), w)
      end
  end.
Proof.
  unfold get. rewrite run_bind. unfold lift at 1.
  destruct (_get_next cfg dj (GET request)) as [next|e]; [|done].
  rewrite run_bind. cbn.
  destruct (request_user w) as [user|]; [|done]. by destruct (is_staff user).
Qed.

(** X8: [get] only reads: whatever it answers, and also when it raises,
    the user bound to the request, the user table and the calls made
    are what they were. *)
Theorem get_read_only (request : HttpRequest) (w : World) :
  (get cfg dj request w).2 = w.
Proof.
  rewrite get_unfold.
  destruct (_get_next cfg dj (GET request)) as [next|e]; [|done].
  destruct (request_user w) as [user|]; [|done]. by destruct (is_staff user).
Qed.

(** X9: once the target is computed, [get] shows the plain form to an
    anonymous visitor, hands a staff user to [redirect], and shows any
    other logged-in user the form with the "not staff" message. *)
Theorem get_by_user (request : HttpRequest) (w : World) (next : string) :
  _get_next cfg dj (GET request) = Return next →
  (request_user w = None →
   (get cfg dj request w).1 = Return (login_page cfg dj next None))
  ∧ (∀ user, request_user w = Some user → is_staff user = true →
     (get cfg dj request w).1 = redirect dj next)
  ∧ (∀ user, request_user w = Some user → is_staff user = false →
     (get cfg dj request w).1 =
     Return (login_page cfg dj next
               (Some "To access admin panel, you must login as a staff member"))).
Proof.
  intros Hnext. rewrite get_unfold, Hnext.
  split; [by intros ->|]. split; intros user -> Hstaff; by rewrite Hstaff.
Qed.

(** X10: a POST without [email], or with an empty one, gets the form
    back with "Email field must be non-empty", whatever the password
    field and the user table hold; nothing is looked up and nobody is
    logged in. *)
Theorem post_missing_email (request : HttpRequest) (w : World) (next : string) :
  _get_next cfg dj (POST request) = Return next →
  truthy_str (QueryDict_get (POST request) "email") = false →
  post cfg dj request w =
  (Return (login_page cfg dj next (Some "Email field must be non-empty")), w).
Proof.
  intros Hnext He. rewrite post_unfold, Hnext.
  by destruct (QueryDict_get (POST request) "email") as [[|? ?]|].
Qed.

(** X11: a POST with an email but without [password], or with an empty
    one, gets the form back with "Password field must be non-empty",
    whatever the user table holds; nobody is logged in. *)
Theorem post_missing_password (request : HttpRequest) (w : World) (next : string) :
  _get_next cfg dj (POST request) = Return next →
  truthy_str (QueryDict_get (POST request) "email") = true →
  truthy_str (QueryDict_get (POST request) "password") = false →
  post cfg dj request w =
  (Return (login_page cfg dj next (Some "Password field must be non-empty")), w).
Proof.
  intros Hnext He Hp. rewrite post_unfold, Hnext.
  destruct (QueryDict_get (POST request) "email") as [[|? ?]|]; try done.
  by destruct (QueryDict_get (POST request) "password") as [[|? ?]|].
Qed.

(** X12: when several users share the submitted email, [post] does not
    answer: [MultipleObjectsReturned] leaves the view, before any
    password is checked, and nobody is logged in. *)
Theorem post_duplicate_email (request : HttpRequest) (w : World)
    (next email password : string) :
  _get_next cfg dj (POST request) = Return next →
  QueryDict_get (POST request) "email" = Some email → email ≠ "" →
  QueryDict_get (POST request) "password" = Some password → password ≠ "" →
  1 < length (filter (λ u, user_email u = email) (db w)) →
  post cfg dj request w = (Raise MultipleObjectsReturned, w).
Proof.
  intros Hnext He Hene Hp Hpne Hmany. rewrite post_unfold, Hnext, He, Hp.
  destruct email as [|a email]; [done|]. destruct password as [|b password]; [done|].
  destruct (filter (λ u, user_email u = String a email) (db w)) as [|user [|? ?]];
    cbn in Hmany; try lia. done.
Qed.

(** X13: [post] changes the world in one way only: it logs in the one
    user who has the submitted email, and only when [check_password]
    accepts the submitted password for that user.  On every other path
    the world is left as it was. *)
Theorem post_session_sound (request : HttpRequest) (w : World) :
  (post cfg dj request w).2 = w
  ∨ ∃ email password user,
      QueryDict_get (POST request) "email" = Some email ∧
      QueryDict_get (POST request) "password" = Some password ∧
      filter (λ u, user_email u = email) (db w) = [user] ∧
      check_password dj user password = true ∧
      (post cfg dj request w).2 =
        {| request_user := Some user; db := db w;
           calls := calls w ++ [EvLogin user (AUTH_BACKEND cfg)] |}.
Proof.
  rewrite post_unfold.
  destruct (_get_next cfg dj (POST request)) as [next|e]; [|by left].
  destruct (QueryDict_get (POST request) "email") as [[|a email]|]; try by left.
  destruct (QueryDict_get (POST request) "password") as [[|b password]|];
    try by left.
  destruct (filter (λ u, user_email u = String a email) (db w))
    as [|user [|? ?]] eqn:Hfilter; try by left.
  destruct (check_password dj user (String b password)) eqn:Hpw; [|by left].
  right. by exists (String a email), (String b password), user.
Qed.

(** X14: [post] answers with a redirect only for a staff user whose
    password [check_password] has accepted. *)
Theorem post_redirect_only_staff (request : HttpRequest) (w : World) (url : string) :
  (post cfg dj request w).1 = Return (HttpResponseRedirect url) →
  ∃ email password user,
    QueryDict_get (POST request) "email" = Some email ∧
    QueryDict_get (POST request) "password" = Some password ∧
    filter (λ u, user_email u = email) (db w) = [user] ∧
    check_password dj user password = true ∧
    is_staff user = true.
Proof.
  rewrite post_unfold.
  destruct (_get_next cfg dj (POST request)) as [next|e]; [|done].
  destruct (QueryDict_get (POST request) "email") as [[|a email]|]; try done.
  destruct (QueryDict_get (POST request) "password") as [[|b password]|]; try done.
  destruct (filter (λ u, user_email u = String a email) (db w))
    as [|user [|? ?]] eqn:Hfilter; try done.
  destruct (check_password dj user (String b password)) eqn:Hpw; [|done].
  destruct (is_staff user) eqn:Hstaff; [|done].
  intros _. by exists (String a email), (String b password), user.
Qed.

(** X15: whatever [post] answers is a redirect or the login page for the
    computed target with one of its four messages; the page is never
    shown without a message and the answer is never a JSON body. *)
Theorem post_response_shape (request : HttpRequest) (w : World)
    (response : HttpResponse) :
  (post cfg dj request w).1 = Return response →
  (∃ url, response = HttpResponseRedirect url)
  ∨ ∃ next message,
      _get_next cfg dj (POST request) = Return next ∧
      response = login_page cfg dj next (Some message) ∧
      message ∈ ["Email field must be non-empty";
                 "Password field must be non-empty";
                 "Wrong email or password";
                 "To access admin panel, you must login as a staff member"].
Proof.
  rewrite post_unfold.
  destruct (_get_next cfg dj (POST request)) as [next|e]; [|done].
  assert (∀ message,
            message ∈ ["Email field must be non-empty";
                       "Password field must be non-empty";
                       "Wrong email or password";
                       "To access admin panel, you must login as a staff member"] →
            Return (login_page cfg dj next (Some message)) = Return response →
            (∃ url, response = HttpResponseRedirect url)
            ∨ ∃ next' message',
                Return next = Return next' ∧
                response = login_page cfg dj next' (Some message') ∧
                message' ∈ ["Email field must be non-empty";
                            "Password field must be non-empty";
                            "Wrong email or password";
                            "To access admin panel, you must login as a staff member"])
    as Hpage.
  { intros message Hin [= <-]. right. by exists next, message. }
  destruct (QueryDict_get (POST request) "email") as [[|a email]|];
    try (apply Hpage; apply list_elem_of_In; cbn; tauto).
  destruct (QueryDict_get (POST request) "password") as [[|b password]|];
    try (apply Hpage; apply list_elem_of_In; cbn; tauto).
  destruct (filter (λ u, user_email u = String a email) (db w)) as [|user [|? ?]];
    [apply Hpage; apply list_elem_of_In; cbn; tauto| |done].
  destruct (check_password dj user (String b password));
    [|apply Hpage; apply list_elem_of_In; cbn; tauto].
  destruct (is_staff user); cbn;
    [|apply Hpage; apply list_elem_of_In; cbn; tauto].
  unfold redirect, new_HttpResponseRedirect.
  destruct (resolve_url dj next) as [url|e]; cbn; [|done].
  destruct (allowed_scheme dj url); [|done].
  intros [= <-]. left. by exists url.
Qed.

(** X16: when no non-empty [next] is submitted and the configured
    admin-login redirect URL does not resolve, both handlers raise what
    [resolve_url] raised before looking at anything else: the form is
    not even shown. *)
Theorem login_form_needs_default_url (request : HttpRequest) (w : World) (e : exn) :
  resolve_url dj (ADMIN_LOGIN_REDIRECT_URL cfg) = Raise e →
  (truthy_str (QueryDict_get (GET request) "next") = false →
   get cfg dj request w = (Raise e, w))
  ∧ (truthy_str (QueryDict_get (POST request) "next") = false →
     post cfg dj request w = (Raise e, w)).
Proof.
  intros Hres. split; intros Hq.
  - by rewrite get_unfold, get_next_default, Hres.
  - by rewrite post_unfold, get_next_default, Hres.
Qed.

(** X17: after [logout] the request is anonymous, whoever was logged in
    before, so the staff login page then shows the plain form. *)
Theorem logout_then_get (request request' : HttpRequest) (w : World) (next : string) :
  _get_next cfg dj (GET request') = Return next →
  (logout request w).1 = Return (JsonResponse [("status", "ok")] 200)
  ∧ request_user (logout request w).2 = None
  ∧ db (logout request w).2 = db w
  ∧ (get cfg dj request' (logout request w).2).1 =
    Return (login_page cfg dj next None).
Proof.
  intros Hnext. repeat (split; [done|]). by rewrite get_unfold, Hnext.
Qed.

(** X20: a submitted [next] for which [resolve_url] finds no reverse
    match is kept as submitted, and the configured URL is not consulted:
    an anonymous GET shows the form with that very value as its redirect
    target. *)
Theorem get_keeps_unresolved_next (request : HttpRequest) (w : World) (next : string) :
  QueryDict_get (GET request) "next" = Some next → next ≠ "" →
  resolve_url dj next = Raise NoReverseMatch →
  request_user w = None →
  _get_next cfg dj (GET request) = Return next
  ∧ get cfg dj request w = (Return (login_page cfg dj next None), w).
Proof.
  intros Hq Hne Hres Hanon.
  assert (_get_next cfg dj (GET request) = Return next) as Hnext
    by by apply get_next_unresolved.
  split; [done|]. by rewrite get_unfold, Hnext, Hanon.
Qed.

(** X21: [NoReverseMatch] is the only failure of [resolve_url] that
    [_get_next] tolerates for a submitted [next]: any other exception
    leaves [_get_next], and with it [get] and [post], before anything
    else is done. *)
Theorem get_next_other_exception (request : HttpRequest) (w : World)
    (next : string) (e : exn) :
  QueryDict_get (POST request) "next" = Some next → next ≠ "" →
  resolve_url dj next = Raise e → e ≠ NoReverseMatch →
  _get_next cfg dj (POST request) = Raise e
  ∧ post cfg dj request w = (Raise e, w).
Proof.
  intros Hq Hne Hres He.
  assert (_get_next cfg dj (POST request) = Raise e) as Hnext.
  { unfold _get_next. rewrite Hq, truthy_str_Some by done. cbn. rewrite Hres.
    by destruct e. }
  split; [done|]. by rewrite post_unfold, Hnext.
Qed.

End AdminLoginPaths.

Section TokenThenForm.
Context (cfg : Conf) (fb : Firebase) (dj : Django) (user_getter : AbstractUserGetter).

Import AdminLoginView.


End TokenThenForm.

(** X19: the error classes have pairwise distinct codes: two classes
    with the same [error_type] are the same class; hence two classes
    with the same response body are the same class as well. *)
Theorem error_type_inj (cls1 cls2 : AuthError) :
  (error_type cls1 = error_type cls2 → cls1 = cls2)
  ∧ (make_response_body cls1 = make_response_body cls2 → cls1 = cls2).
Proof.
  assert (error_type cls1 = error_type cls2 → cls1 = cls2) as Hcode
    by (destruct cls1, cls2; (done || discriminate)).
  split; [done|]. intros [= Htype _]. by apply Hcode.
Qed.

(** ** The further theorems at work on the demo deployment *)

Section FurtherRuns.
Import Demo AdminLoginView.

Lemma split_user_getter_class_ok_witness :
  split_user_getter_class "django_firebase_auth.user_getter:EmailUserGetter" =
  Return ("django_firebase_auth.user_getter", "EmailUserGetter").
Proof.
  apply (split_user_getter_class_ok
           "django_firebase_auth.user_getter:EmailUserGetter"
           "django_firebase_auth.user_getter" "EmailUserGetter").
  split; [reflexivity|]. split; reflexivity.
Defined.

Lemma split_user_getter_class_error_witness :
  str_count ":" "pkg:module:Getter" ≠ 1 ∧
  split_user_getter_class "pkg:module:Getter" = Raise ValueError.
Proof.
  split; [discriminate|].
  apply (split_user_getter_class_error "pkg:module:Getter"). discriminate.
Defined.

Lemma verify_returns_checked_claims_witness :
  (_verify_firebase_account cfg fb (headers (token_request "alice-token")) world).1 =
    Return alice_claims ∧
  ∃ jwt v,
    headers (token_request "alice-token") !! JWT_HEADER_NAME cfg = Some jwt ∧
    verify_id_token fb jwt = Return alice_claims ∧
    alice_claims !! "email_verified" = Some v ∧
    truthy v || ALLOW_NOT_CONFIRMED_EMAILS cfg = true.
Proof.
  split; [reflexivity|].
  apply (verify_returns_checked_claims cfg fb (headers (token_request "alice-token"))
           world alice_claims).
  reflexivity.
Defined.

Lemma authenticate_ok_inv_witness :
  (authenticate cfg fb (EmailUserGetter false) (token_request "alice-token") world).1 =
    Return (JsonResponse [("status", "ok")] 200) ∧
  ∃ jwt payload v user users,
    headers (token_request "alice-token") !! JWT_HEADER_NAME cfg = Some jwt ∧
    verify_id_token fb jwt = Return payload ∧
    payload !! "email_verified" = Some v ∧
    truthy v || ALLOW_NOT_CONFIRMED_EMAILS cfg = true ∧
    @get_or_create_user (EmailUserGetter false) payload (db world) =
      (Return user, users) ∧
    [("status", "ok")] = [("status", "ok")] ∧
    (authenticate cfg fb (EmailUserGetter false) (token_request "alice-token") world).2 =
      {| request_user := Some user; db := users;
         calls := calls world ++
                  [EvVerify jwt; EvResolve payload; EvLogin user (AUTH_BACKEND cfg)] |}.
Proof.
  split; [reflexivity|].
  apply (authenticate_ok_inv cfg fb (EmailUserGetter false)
           (token_request "alice-token") world [("status", "ok")]).
  reflexivity.
Defined.

Lemma authenticate_response_shape_witness :
  (authenticate cfg fb (EmailUserGetter false) (token_request "stale-token") world).1 =
    Return (JsonResponse (make_response_body JWTExpired) 401) ∧
  (JsonResponse (make_response_body JWTExpired) 401 =
     JsonResponse [("status", "ok")] 200
   ∨ ∃ cls, JsonResponse (make_response_body JWTExpired) 401 =
            JsonResponse (make_response_body cls) 401).
Proof.
  split; [reflexivity|].
  apply (authenticate_response_shape cfg fb (EmailUserGetter false)
           (token_request "stale-token") world). reflexivity.
Defined.

Lemma authenticate_raise_inv_witness :
  (authenticate cfg Fixtures.fb (EmailUserGetter false) (token_request "offline")
     (Fixtures.world_as bob)).1 = Raise (OtherException "ConnectionError") ∧
  request_user
    (authenticate cfg Fixtures.fb (EmailUserGetter false) (token_request "offline")
       (Fixtures.world_as bob)).2 = Some bob.
Proof.
  split; [reflexivity|].
  apply (authenticate_raise_inv cfg Fixtures.fb (EmailUserGetter false)
           (token_request "offline") (Fixtures.world_as bob)
           (OtherException "ConnectionError")). reflexivity.
Defined.

Lemma authenticate_missing_claim_witness :
  headers (token_request "anon-token") !! JWT_HEADER_NAME Fixtures.cfg_lenient =
    Some "anon-token" ∧
  verify_id_token Fixtures.fb "anon-token" = Return Fixtures.anonymous_claims ∧
  Fixtures.anonymous_claims !! "email_verified" = None ∧
  ALLOW_NOT_CONFIRMED_EMAILS Fixtures.cfg_lenient = true ∧
  authenticate Fixtures.cfg_lenient Fixtures.fb (EmailUserGetter true)
    (token_request "anon-token") world =
  (Raise (KeyError "email_verified"),
   {| request_user := None; db := [alice; bob]; calls := [EvVerify "anon-token"] |}).
Proof.
  do 4 (split; [reflexivity|]).
  apply (authenticate_missing_claim Fixtures.cfg_lenient Fixtures.fb
           (EmailUserGetter true) (token_request "anon-token") world "anon-token"
           Fixtures.anonymous_claims); reflexivity.
Defined.

Lemma get_by_user_witness :
  _get_next cfg dj (GET (Fixtures.get_request ["reports"])) = Return "/reports/" ∧
  request_user (Fixtures.world_as bob) = Some bob ∧
  is_staff bob = false ∧
  (get cfg dj (Fixtures.get_request ["reports"]) (Fixtures.world_as bob)).1 =
  Return (login_page cfg dj "/reports/"
            (Some "To access admin panel, you must login as a staff member")).
Proof.
  do 3 (split; [reflexivity|]).
  destruct (get_by_user cfg dj (Fixtures.get_request ["reports"])
              (Fixtures.world_as bob) "/reports/") as (_ & _ & Hother);
    [reflexivity|].
  apply (Hother bob); reflexivity.
Defined.

Lemma post_missing_email_witness :
  _get_next cfg dj (POST (Fixtures.password_only_request "hunter2")) = Return "/admin/" ∧
  truthy_str (QueryDict_get (POST (Fixtures.password_only_request "hunter2")) "email")
    = false ∧
  post cfg dj (Fixtures.password_only_request "hunter2") world =
  (Return (login_page cfg dj "/admin/" (Some "Email field must be non-empty")), world).
Proof.
  do 2 (split; [reflexivity|]).
  apply (post_missing_email cfg dj (Fixtures.password_only_request "hunter2") world
           "/admin/"); reflexivity.
Defined.

Lemma post_missing_password_witness :
  truthy_str (QueryDict_get (POST (Fixtures.email_only_request "bob@example.org"))
                "email") = true ∧
  truthy_str (QueryDict_get (POST (Fixtures.email_only_request "bob@example.org"))
                "password") = false ∧
  post cfg dj (Fixtures.email_only_request "bob@example.org") world =
  (Return (login_page cfg dj "/admin/" (Some "Password field must be non-empty")),
   world).
Proof.
  do 2 (split; [reflexivity|]).
  apply (post_missing_password cfg dj (Fixtures.email_only_request "bob@example.org")
           world "/admin/"); reflexivity.
Defined.

Lemma post_duplicate_email_witness :
  1 < length (filter (λ u, user_email u = "bob@example.org")
                (db Fixtures.world_duplicates)) ∧
  post cfg dj (form_request "bob@example.org" "hunter2") Fixtures.world_duplicates =
  (Raise MultipleObjectsReturned, Fixtures.world_duplicates).
Proof.
  split; [vm_compute; lia|].
  apply (post_duplicate_email cfg dj (form_request "bob@example.org" "hunter2")
           Fixtures.world_duplicates "/admin/" "bob@example.org" "hunter2");
    try reflexivity; try discriminate.
  vm_compute. lia.
Defined.

Lemma post_redirect_only_staff_witness :
  (post cfg dj (form_request "alice@example.org" "s3cret") world).1 =
    Return (HttpResponseRedirect "/admin/") ∧
  ∃ email password user,
    QueryDict_get (POST (form_request "alice@example.org" "s3cret")) "email" =
      Some email ∧
    QueryDict_get (POST (form_request "alice@example.org" "s3cret")) "password" =
      Some password ∧
    filter (λ u, user_email u = email) (db world) = [user] ∧
    check_password dj user password = true ∧
    is_staff user = true.
Proof.
  split; [reflexivity|].
  apply (post_redirect_only_staff cfg dj (form_request "alice@example.org" "s3cret")
           world "/admin/"). reflexivity.
Defined.

Lemma post_response_shape_witness :
  (post cfg dj (form_request "bob@example.org" "guess") world).1 =
    Return (login_page cfg dj "/admin/" (Some "Wrong email or password")) ∧
  ((∃ url, login_page cfg dj "/admin/" (Some "Wrong email or password") =
           HttpResponseRedirect url)
   ∨ ∃ next message,
       _get_next cfg dj (POST (form_request "bob@example.org" "guess")) = Return next ∧
       login_page cfg dj "/admin/" (Some "Wrong email or password") =
         login_page cfg dj next (Some message) ∧
       message ∈ ["Email field must be non-empty";
                  "Password field must be non-empty";
                  "Wrong email or password";
                  "To access admin panel, you must login as a staff member"]).
Proof.
  split; [reflexivity|].
  apply (post_response_shape cfg dj (form_request "bob@example.org" "guess") world).
  reflexivity.
Defined.

Lemma login_form_needs_default_url_witness :
  resolve_url dj (ADMIN_LOGIN_REDIRECT_URL Fixtures.cfg_broken) = Raise NoReverseMatch ∧
  truthy_str (QueryDict_get (GET bare_request) "next") = false ∧
  get Fixtures.cfg_broken dj bare_request world = (Raise NoReverseMatch, world).
Proof.
  do 2 (split; [reflexivity|]).
  destruct (login_form_needs_default_url Fixtures.cfg_broken dj bare_request world
              NoReverseMatch) as [Hget _]; [reflexivity|].
  apply Hget. reflexivity.
Defined.

Lemma logout_then_get_witness :
  _get_next cfg dj (GET bare_request) = Return "/admin/" ∧
  request_user (Fixtures.world_as alice) = Some alice ∧
  (get cfg dj bare_request (logout bare_request (Fixtures.world_as alice)).2).1 =
  Return (login_page cfg dj "/admin/" None).
Proof.
  do 2 (split; [reflexivity|]).
  apply (logout_then_get cfg dj bare_request bare_request (Fixtures.world_as alice)
           "/admin/"). reflexivity.
Defined.


Lemma error_type_inj_witness :
  error_type JWTExpired = "JWT_EXPIRED" ∧
  ∀ cls, error_type cls = "JWT_EXPIRED" → cls = JWTExpired.
Proof.
  split; [reflexivity|]. intros cls Hcode.
  destruct (error_type_inj cls JWTExpired) as [Hinj _]. apply Hinj. exact Hcode.
Defined.

Lemma get_keeps_unresolved_next_witness :
  QueryDict_get (GET (Fixtures.get_request ["dashboard"])) "next" = Some "dashboard" ∧
  resolve_url dj "dashboard" = Raise NoReverseMatch ∧
  request_user world = None ∧
  get cfg dj (Fixtures.get_request ["dashboard"]) world =
  (Return (login_page cfg dj "dashboard" None), world).
Proof.
  do 3 (split; [reflexivity|]).
  apply (get_keeps_unresolved_next cfg dj (Fixtures.get_request ["dashboard"]) world
           "dashboard"); try reflexivity. discriminate.
Defined.

Lemma get_next_other_exception_witness :
  QueryDict_get (POST (form_request_next "alice@example.org" "s3cret" "reports"))
    "next" = Some "reports" ∧
  resolve_url Fixtures.dj_misconfigured "reports" =
    Raise (OtherException "ImproperlyConfigured") ∧
  post cfg Fixtures.dj_misconfigured
    (form_request_next "alice@example.org" "s3cret" "reports") world =
  (Raise (OtherException "ImproperlyConfigured"), world).
Proof.
  do 2 (split; [reflexivity|]).
  apply (get_next_other_exception cfg Fixtures.dj_misconfigured
           (form_request_next "alice@example.org" "s3cret" "reports") world
           "reports" (OtherException "ImproperlyConfigured"));
    try reflexivity; discriminate.
Defined.

End FurtherRuns.
